(** * manage_helm_charts.py: a shallow embedding

    The script is a thin facade over two external systems: the Artifact Hub
    HTTP API (reached through [requests.Session.get]) and the [helm] binary
    (reached through [subprocess.run]).  Both are modelled as oracles of a
    [World]; every call the script makes is recorded, in order, in a trace of
    events next to the text it prints.  Python exceptions are values of the
    type [exn], threaded through a small trace-and-error monad. *)

From Stdlib Require Import String Ascii List ZArith Bool Lia.
Import ListNotations.
Open Scope string_scope.
Open Scope list_scope.
Set Warnings "-register-all".

(** ** Strings

    A Python [str] is modelled as [String.string].  Text outside ASCII is read
    as its UTF-8 bytes; the byte of ["/"] never occurs inside a multi-byte
    sequence, so splitting on it agrees with splitting on the code point. *)

Definition slash : ascii := "/"%char.

(** [s.split(sep)] for a one-character separator: every occurrence of the
    separator cuts, empty pieces are kept, and the empty string gives one
    empty piece. *)
Fixpoint split_on (sep : ascii) (s : string) : list string :=
  match s with
  | EmptyString => [EmptyString]
  | String c rest =>
      if Ascii.eqb c sep then EmptyString :: split_on sep rest
      else match split_on sep rest with
           | hd :: tl => String c hd :: tl
           | [] => [String c EmptyString]
           end
  end.

(** Number of occurrences of a character, used to state what [split_on]
    does. *)
Fixpoint count_char (sep : ascii) (s : string) : nat :=
  match s with
  | EmptyString => 0
  | String c rest => (if Ascii.eqb c sep then 1 else 0) + count_char sep rest
  end.

(** Python truthiness of an [Optional[str]]: [None] and [""] are false. *)
Definition truthy (o : option string) : bool :=
  match o with
  | None => false
  | Some EmptyString => false
  | Some (String _ _) => true
  end.

(** ** JSON values, as [response.json()] returns them *)

Inductive json : Type :=
| JNull
| JBool (b : bool)
| JNum (literal : string)
| JStr (s : string)
| JArr (items : list json)
| JObj (fields : list (string * json)).

(** Lookup in a [dict]; the association list is the dict's content, one
    binding per key, the first one met being the key's value. *)
Fixpoint dict_lookup (k : string) (fields : list (string * json)) : option json :=
  match fields with
  | [] => None
  | (k', v) :: rest => if String.eqb k k' then Some v else dict_lookup k rest
  end.

(** The characters of a string, each as a one-character string (iteration
    over a [str]). *)
Fixpoint chars_of (s : string) : list json :=
  match s with
  | EmptyString => []
  | String c rest => JStr (String c EmptyString) :: chars_of rest
  end.

Fixpoint string_firstn (n : nat) (s : string) : string :=
  match n, s with
  | O, _ => EmptyString
  | S _, EmptyString => EmptyString
  | S n', String c rest => String c (string_firstn n' rest)
  end.

(** ** Exceptions

    Every constructor stands for a class derived from Python's [Exception]:
    [ValueError] (unpacking the split), [requests.RequestException] and its
    subclass [HTTPError], [JSONDecodeError], [AttributeError], [KeyError],
    [TypeError], [OSError] (the binary cannot be spawned),
    [subprocess.CalledProcessError], and the plain [Exception] the facade
    raises with a message built from a prefix and [str(e)]. *)
Inductive exn : Type :=
| ValueError (got : nat)
| RequestException
| HTTPError (status : Z)
| JSONDecodeError
| AttributeError
| KeyError (key : string)
| TypeError
| OSError
| CalledProcessError (returncode : Z) (cmd : list string)
| Exception_ (prefix : string) (cause : exn).

Definition is_CalledProcessError (e : exn) : bool :=
  match e with
  | CalledProcessError _ _ => true
  | _ => false
  end.

(** [except Exception]: every class above derives from [Exception]. *)
Definition is_Exception (e : exn) : bool :=
  match e with
  | ValueError _ | RequestException | HTTPError _ | JSONDecodeError
  | AttributeError | KeyError _ | TypeError | OSError
  | CalledProcessError _ _ | Exception_ _ _ => true
  end.

(** ** Events *)

(** The parts of an f-string: program text, [str] of a JSON value, [str] of
    an exception. *)
Inductive piece : Type :=
| Txt (s : string)
| Val (v : json)
| ExnStr (e : exn).

Inductive event : Type :=
| EvGet (url : string) (params : list (string * string))
| EvRun (cmd : list string) (capture_output : bool)
| EvPrint (line : list piece).

(** ** The outside world *)

Record response : Type := mkResponse {
  status_code : Z;
  json_body : option json   (* [None]: the body does not parse as JSON *)
}.

Inductive http_outcome : Type :=
| TransportFailure
| Responded (r : response).

Inductive proc_outcome : Type :=
| SpawnFailure
| Exited (returncode : Z) (output : string).

(** Both oracles see the history of events so far, so that the same call can
    be answered differently at different times. *)
Record World : Type := mkWorld {
  http_get : list event -> string -> list (string * string) -> http_outcome;
  run_process : list event -> list string -> proc_outcome
}.

(** ** The monad: a trace of events and a possible exception *)

Inductive result (A : Type) : Type :=
| Ok (a : A)
| Err (e : exn).
Arguments Ok {A} a.
Arguments Err {A} e.

Definition M (A : Type) : Type := list event -> result A * list event.

Definition ret {A} (a : A) : M A := fun t => (Ok a, t).

Definition raise {A} (e : exn) : M A := fun t => (Err e, t).

Definition bind {A B} (m : M A) (k : A -> M B) : M B :=
  fun t =>
    match m t with
    | (Ok a, t') => k a t'
    | (Err e, t') => (Err e, t')
    end.

Notation "x <- m ;; k" := (bind m (fun x => k))
  (at level 61, m at next level, right associativity).
Notation "m ;;; k" := (bind m (fun _ => k))
  (at level 61, right associativity).

(** [try: m except C as e: h e], where [handles] decides [isinstance(e, C)]. *)
Definition try_except {A} (m : M A) (handles : exn -> bool) (h : exn -> M A) : M A :=
  fun t =>
    match m t with
    | (Ok a, t') => (Ok a, t')
    | (Err e, t') => if handles e then h e t' else (Err e, t')
    end.

Definition print (line : list piece) : M unit :=
  fun t => (Ok tt, t ++ [EvPrint line]).

(** [for x in l: body x] *)
Fixpoint for_each {A} (l : list A) (body : A -> M unit) : M unit :=
  match l with
  | [] => ret tt
  | x :: rest => body x ;;; for_each rest body
  end.

Definition run {A} (m : M A) : result A * list event := m [].

Definition outcome {A} (m : M A) : result A := fst (run m).

Definition trace {A} (m : M A) : list event := snd (run m).

(** ** Operations on JSON values *)

(** [v[k]] with a string key. *)
Definition py_getitem (v : json) (k : string) : M json :=
  match v with
  | JObj fields =>
      match dict_lookup k fields with
      | Some x => ret x
      | None => raise (KeyError k)
      end
  | _ => raise TypeError
  end.

(** [v.get(k, default)]: only a dict has the method. *)
Definition py_get (v : json) (k : string) (default : json) : M json :=
  match v with
  | JObj fields =>
      match dict_lookup k fields with
      | Some x => ret x
      | None => ret default
      end
  | _ => raise AttributeError
  end.

(** [v[:n]]: lists and strings can be sliced; slicing a dict raises
    ([TypeError], or [KeyError] from Python 3.12 on), as does slicing
    anything else. *)
Definition py_slice_to (n : nat) (v : json) : M json :=
  match v with
  | JArr items => ret (JArr (firstn n items))
  | JStr s => ret (JStr (string_firstn n s))
  | _ => raise TypeError
  end.

(** The items a [for] loop visits. *)
Definition py_iter (v : json) : M (list json) :=
  match v with
  | JArr items => ret items
  | JStr s => ret (chars_of s)
  | JObj fields => ret (map (fun kv => JStr (fst kv)) fields)
  | _ => raise TypeError
  end.

(** ** The facade: class HelmChartManager *)

Definition ARTIFACT_HUB_API : string := "https://artifacthub.io/api/v1".

Section Facade.

Variable w : World.

(** [self.session.get(url, params=params)]: one call, answered by the
    world with a response or with the failure of the request.  The text of
    the url and of the parameters is taken to be encodable. *)
Definition session_get (url : string) (params : list (string * string)) : M response :=
  fun t =>
    match http_get w t url params with
    | TransportFailure => (Err RequestException, t ++ [EvGet url params])
    | Responded r => (Ok r, t ++ [EvGet url params])
    end.

(** [response.raise_for_status()]: 4xx and 5xx raise. *)
Definition raise_for_status (r : response) : M unit :=
  if ((400 <=? status_code r) && (status_code r <? 600))%Z
  then raise (HTTPError (status_code r))
  else ret tt.

(** [response.json()]: the parsed body, or the failure to parse it.  What
    else the call can let through (the interpreter's limits on digits and on
    nesting) is not among the answers of the world. *)
Definition response_json (r : response) : M json :=
  match json_body r with
  | Some j => ret j
  | None => raise JSONDecodeError
  end.

(** [subprocess.run(cmd, check=True, ...)]; the value is [result.stdout],
    the text captured when [capture_output=True, text=True] (no caller reads
    it otherwise).  The world answers for a command that can be handed to
    the system and whose output decodes: an argument holding a NUL and
    output that is not text are not among its answers. *)
Definition subprocess_run (cmd : list string) (capture_output : bool) : M string :=
  fun t =>
    match run_process w t cmd with
    | SpawnFailure => (Err OSError, t ++ [EvRun cmd capture_output])
    | Exited rc out =>
        if (rc =? 0)%Z then (Ok out, t ++ [EvRun cmd capture_output])
        else (Err (CalledProcessError rc cmd), t ++ [EvRun cmd capture_output])
    end.

Definition search_url : string :=
  (ARTIFACT_HUB_API ++ "/packages/search")%string.

Definition search_params (keyword : string) : list (string * string) :=
  [("kind", "0"); ("ts_query", keyword); ("sort", "relevance")].

Definition search_charts (keyword : string) : M json :=
  response <- session_get search_url (search_params keyword) ;;
  raise_for_status response ;;;
  body <- response_json response ;;
  py_get body "packages" (JArr []).

(** [repo, chart = name.split("/")] *)
Definition unpack_pair (parts : list string) : M (string * string) :=
  match parts with
  | [repo; chart] => ret (repo, chart)
  | _ => raise (ValueError (length parts))
  end.

Definition details_url (repo chart : string) : string :=
  (ARTIFACT_HUB_API ++ "/packages/helm/" ++ repo ++ "/" ++ chart)%string.

Definition get_chart_details (name : string) : M json :=
  rc <- unpack_pair (split_on slash name) ;;
  response <- session_get (details_url (fst rc) (snd rc)) [] ;;
  raise_for_status response ;;;
  response_json response.

Definition add_helm_repo (name url : string) : M unit :=
  try_except
    (subprocess_run ["helm"; "repo"; "add"; name; url] false ;;;
     subprocess_run ["helm"; "repo"; "update"] false ;;;
     ret tt)
    is_CalledProcessError
    (fun e => raise (Exception_ "Failed to add Helm repository: " e)).

Definition install_cmd (name release_name namespace : string) (version : option string)
  : list string :=
  let cmd := ["helm"; "install"; release_name; name; "--namespace"; namespace] in
  if truthy version
  then cmd ++ ["--version"; match version with Some v => v | None => "" end]
  else cmd.

Definition install_chart (name release_name namespace : string) (version : option string)
  : M unit :=
  try_except
    (subprocess_run (install_cmd name release_name namespace version) false ;;; ret tt)
    is_CalledProcessError
    (fun e => raise (Exception_ "Failed to install chart: " e)).

Definition list_cmd (namespace : option string) : list string :=
  let cmd := ["helm"; "list"] in
  if truthy namespace
  then cmd ++ ["-n"; match namespace with Some n => n | None => "" end]
  else cmd.

Definition list_releases (namespace : option string) : M string :=
  try_except
    (subprocess_run (list_cmd namespace) true)
    is_CalledProcessError
    (fun e => raise (Exception_ "Failed to list releases: " e)).

Definition uninstall_cmd (release_name namespace : string) : list string :=
  ["helm"; "uninstall"; release_name; "-n"; namespace].

Definition uninstall_release (release_name namespace : string) : M unit :=
  try_except
    (subprocess_run (uninstall_cmd release_name namespace) false ;;; ret tt)
    is_CalledProcessError
    (fun e => raise (Exception_ "Failed to uninstall release: " e)).

End Facade.

(** ** The command line: function main *)

(** What [parser.parse_args()] hands to the dispatch: [args.command] and the
    attributes of the chosen sub-parser, with argparse's defaults
    ([--namespace] is ["default"] for install and uninstall and [None] for
    list-releases, [--version] is [None]).  [NoCommand] is a command line
    without a sub-command, for which [args.command] is [None]. *)
Inductive args : Type :=
| NoCommand
| Search (keyword : string)
| Info (name : string)
| Install (name release_name namespace : string) (version : option string)
| ListReleases (namespace : option string)
| Uninstall (release_name namespace : string).

(** The text ["\nName: "] that opens the display of a chart. *)
Definition name_label : string := String "010"%char "Name: ".

Section Main.

Variable w : World.

(** The body of the loop over [charts[:5]]. *)
Definition show_chart (chart : json) : M unit :=
  name <- py_getitem chart "name" ;;
  print [Txt name_label; Val name] ;;;
  repository <- py_getitem chart "repository" ;;
  repository_name <- py_getitem repository "name" ;;
  print [Txt "Repository: "; Val repository_name] ;;;
  description <- py_getitem chart "description" ;;
  print [Txt "Description: "; Val description] ;;;
  version <- py_get chart "version" (JStr "N/A") ;;
  print [Txt "Version: "; Val version].

Definition show_details (details : json) : M unit :=
  name <- py_getitem details "name" ;;
  print [Txt name_label; Val name] ;;;
  description <- py_getitem details "description" ;;
  print [Txt "Description: "; Val description] ;;;
  version <- py_get details "version" (JStr "N/A") ;;
  print [Txt "Version: "; Val version] ;;;
  repository <- py_getitem details "repository" ;;
  url <- py_getitem repository "url" ;;
  print [Txt "Repository URL: "; Val url].

(** The [if]/[elif] chain inside [try]. *)
Definition dispatch (a : args) : M unit :=
  match a with
  | Search keyword =>
      charts <- search_charts w keyword ;;
      top <- py_slice_to 5 charts ;;
      items <- py_iter top ;;
      for_each items show_chart
  | Info name =>
      details <- get_chart_details w name ;;
      show_details details
  | Install name release_name namespace version =>
      install_chart w name release_name namespace version ;;;
      print [Txt "Successfully installed "; Txt name; Txt " as "; Txt release_name]
  | ListReleases namespace =>
      out <- list_releases w namespace ;;
      print [Txt out]
  | Uninstall release_name namespace =>
      uninstall_release w release_name namespace ;;;
      print [Txt "Successfully uninstalled "; Txt release_name]
  | NoCommand => ret tt
  end.

Definition main (a : args) : M unit :=
  try_except (dispatch a) is_Exception
    (fun e => print [Txt "Error: "; ExnStr e]).

(** The exit status of the interpreter running the script: 0 when [main]
    returns, 1 when an exception escapes it. *)
Definition exit_status (a : args) : Z :=
  match outcome (main a) with
  | Ok _ => 0%Z
  | Err _ => 1%Z
  end.

(** The facade operation a command calls, its value forgotten. *)
Definition facade_call (a : args) : M unit :=
  match a with
  | Search keyword => search_charts w keyword ;;; ret tt
  | Info name => get_chart_details w name ;;; ret tt
  | Install name release_name namespace version =>
      install_chart w name release_name namespace version
  | ListReleases namespace => list_releases w namespace ;;; ret tt
  | Uninstall release_name namespace => uninstall_release w release_name namespace
  | NoCommand => ret tt
  end.

End Main.

(** ** Vocabulary of the statements *)

(** A world whose two oracles always give the same answers. *)
Definition constant_world (h : http_outcome) (p : proc_outcome) : World :=
  mkWorld (fun _ _ _ => h) (fun _ _ => p).

(** A response with status 200 and the given JSON body. *)
Definition ok_response (body : json) : http_outcome :=
  Responded (mkResponse 200 (Some body)).

(** A line that opens the display of one search result. *)
Definition is_name_line (line : list piece) : bool :=
  match line with
  | Txt s :: _ => String.eqb s name_label
  | _ => false
  end.

(** The number of search results a list of printed lines displays. *)
Definition shown_results (lines : list (list piece)) : nat :=
  length (filter is_name_line lines).

(** A computation that only prints, and displays at most [n] results. *)
Definition prints_at_most {A} (n : nat) (m : M A) : Prop :=
  forall t, exists lines,
    snd (m t) = t ++ map EvPrint lines /\ shown_results lines <= n.

Definition is_error_line (ev : event) : bool :=
  match ev with
  | EvPrint (Txt s :: _) => String.eqb s "Error: "
  | _ => false
  end.

(** A chart summary that has every field the display reads: a dict with
    ["name"], ["description"] and a ["repository"] dict that has a ["name"]. *)
Definition well_formed_chart (chart : json) : bool :=
  match chart with
  | JObj fields =>
      match dict_lookup "name" fields,
            dict_lookup "repository" fields,
            dict_lookup "description" fields with
      | Some _, Some (JObj repository), Some _ =>
          match dict_lookup "name" repository with
          | Some _ => true
          | None => false
          end
      | _, _, _ => false
      end
  | _ => false
  end.

(** The value of a field of a dict ([JNull] where there is none). *)
Definition field (k : string) (v : json) : json :=
  match v with
  | JObj fields =>
      match dict_lookup k fields with
      | Some x => x
      | None => JNull
      end
  | _ => JNull
  end.

(** The four lines that display a well-formed chart summary. *)
Definition chart_lines (chart : json) : list event :=
  [ EvPrint [Txt name_label; Val (field "name" chart)];
    EvPrint [Txt "Repository: "; Val (field "name" (field "repository" chart))];
    EvPrint [Txt "Description: "; Val (field "description" chart)];
    EvPrint [Txt "Version: ";
             Val (match chart with
                  | JObj fields =>
                      match dict_lookup "version" fields with
                      | Some v => v
                      | None => JStr "N/A"
                      end
                  | _ => JStr "N/A"
                  end)] ].

(** A chart summary as Artifact Hub sends it. *)
Definition sample_chart (name : string) : json :=
  JObj [("name", JStr name);
        ("repository", JObj [("name", JStr "bitnami")]);
        ("description", JStr "a chart");
        ("version", JStr "1.0.0")].

Definition seven_charts : list json :=
  map sample_chart ["c1"; "c2"; "c3"; "c4"; "c5"; "c6"; "c7"].

(** Worlds to evaluate the script in. *)
Definition seven_results_world : World :=
  constant_world (ok_response (JObj [("packages", JArr seven_charts)])) (Exited 0 "").

Definition failing_helm_world : World :=
  constant_world TransportFailure (Exited 1 "").

Definition array_body_world : World :=
  constant_world (ok_response (JArr [])) (Exited 0 "").

Definition empty_object_world : World :=
  constant_world (ok_response (JObj [])) (Exited 0 "NAME").

Definition not_found_world : World :=
  constant_world (Responded (mkResponse 404 None)) SpawnFailure.

(** The repository is added, the update fails. *)
Definition update_fails_world : World :=
  mkWorld (fun _ _ _ => TransportFailure)
          (fun _ cmd =>
             match cmd with
             | [_; _; verb] => if String.eqb verb "update" then Exited 1 "" else Exited 0 ""
             | _ => Exited 0 ""
             end).


(** Chart details without a version. *)
Definition redis_details : list (string * json) :=
  [("name", JStr "redis");
   ("description", JStr "a store");
   ("repository", JObj [("url", JStr "https://charts.bitnami.com/bitnami")])].

Definition details_world : World :=
  constant_world (ok_response (JObj redis_details)) SpawnFailure.


(** * Properties *)

(** ** What [split_on] computes *)

Lemma split_on_length (sep : ascii) (s : string) :
  length (split_on sep s) = S (count_char sep s).
Proof.
  induction s as [|c rest IH]; simpl; [reflexivity|].
  destruct (Ascii.eqb c sep); simpl.
  - now rewrite IH.
  - destruct (split_on sep rest) as [|hd tl]; simpl in *; [discriminate IH | exact IH].
Qed.

Lemma split_on_no_sep (sep : ascii) (s : string) :
  count_char sep s = 0 -> split_on sep s = [s].
Proof.
  induction s as [|c rest IH]; simpl; [reflexivity|].
  destruct (Ascii.eqb c sep); simpl; [discriminate|].
  intros H. now rewrite (IH H).
Qed.

Lemma split_on_pair (sep : ascii) (s a b : string) :
  split_on sep s = [a; b] ->
  s = (a ++ String sep b)%string /\ count_char sep a = 0 /\ count_char sep b = 0.
Proof.
  revert a. induction s as [|c rest IH]; intros a; simpl; [discriminate|].
  destruct (Ascii.eqb c sep) eqn:E.
  - intros H. injection H as <- Hrest.
    apply Ascii.eqb_eq in E. subst c.
    assert (Hc : count_char sep rest = 0).
    { pose proof (split_on_length sep rest) as L. rewrite Hrest in L.
      simpl in L. lia. }
    rewrite (split_on_no_sep _ _ Hc) in Hrest. injection Hrest as <-.
    simpl. auto.
  - destruct (split_on sep rest) as [|hd tl] eqn:Hs; [discriminate|].
    intros H. injection H as <- ->.
    destruct (IH hd eq_refl) as (-> & Ha & Hb).
    simpl. rewrite E. auto.
Qed.

Example split_repo_chart :
  split_on slash "bitnami/redis" = ["bitnami"; "redis"].
Proof. reflexivity. Qed.

Example split_no_separator : split_on slash "bitnami" = ["bitnami"].
Proof. reflexivity. Qed.

Example split_two_separators :
  split_on slash "a/b/c" = ["a"; "b"; "c"] /\ split_on slash "/redis/" = [""; "redis"; ""].
Proof. split; reflexivity. Qed.

Section Properties.

Variable w : World.

(** ** getDetails *)

Lemma unpack_pair_fails (parts : list string) (t : list event) :
  length parts <> 2 -> unpack_pair parts t = (Err (ValueError (length parts)), t).
Proof.
  destruct parts as [|a [|b [|c l]]]; simpl; intros H;
    try reflexivity; now contradiction H.
Qed.

Lemma session_get_trace (url : string) (params : list (string * string)) (t : list event) :
  snd (session_get w url params t) = t ++ [EvGet url params].
Proof.
  unfold session_get. now destruct (http_get w t url params).
Qed.

Lemma after_get_trace (r : response) (t : list event) :
  snd ((raise_for_status r ;;; response_json r) t) = t.
Proof.
  unfold bind, raise_for_status, response_json, raise, ret.
  destruct ((400 <=? status_code r)%Z && (status_code r <? 600)%Z); simpl;
    [reflexivity|]. now destruct (json_body r).
Qed.

Lemma get_chart_details_trace (name : string) :
  trace (get_chart_details w name)
  = match split_on slash name with
    | [repo; chart] => [EvGet (details_url repo chart) []]
    | _ => []
    end.
Proof.
  unfold trace, run, get_chart_details, bind at 1.
  destruct (split_on slash name) as [|repo [|chart [|x l]]]; try reflexivity.
  simpl. unfold bind at 1.
  pose proof (session_get_trace (details_url repo chart) [] []) as G.
  destruct (session_get w (details_url repo chart) [] []) as [[r|e] t'];
    simpl in G; subst t'; simpl; [|reflexivity].
  apply (after_get_trace r).
Qed.

(** C1.  Whatever the world answers, [get_chart_details] on a name in which
    ["/"] is absent or occurs more than once raises [ValueError] with an
    empty trace (no request has been issued); and whenever the trace holds
    a GET, the name has exactly one ["/"], the GET is the only event, it
    carries no query parameter, and its URL is the details endpoint built
    from the two parts of the split, [name] being [repo/chart]. *)
Theorem get_chart_details_validates_first (name : string) :
  (count_char slash name <> 1 ->
     run (get_chart_details w name)
     = (Err (ValueError (S (count_char slash name))), []))
  /\ (forall url params,
        In (EvGet url params) (trace (get_chart_details w name)) ->
        count_char slash name = 1
        /\ exists repo chart,
             name = (repo ++ "/" ++ chart)%string
             /\ count_char slash repo = 0 /\ count_char slash chart = 0
             /\ split_on slash name = [repo; chart]
             /\ url = (ARTIFACT_HUB_API ++ "/packages/helm/" ++ repo ++ "/" ++ chart)%string
             /\ params = []
             /\ trace (get_chart_details w name) = [EvGet url params]).
Proof.
  pose proof (split_on_length slash name) as L.
  split.
  - intros H. unfold run, get_chart_details, bind.
    rewrite unpack_pair_fails by lia. now rewrite L.
  - intros url params. rewrite get_chart_details_trace.
    destruct (split_on slash name) as [|repo [|chart [|x l]]] eqn:Hs;
      try (simpl; intros Hin; contradiction).
    intros [Hin|[]]. injection Hin as <- <-.
    simpl in L. split; [lia|].
    destruct (split_on_pair _ _ _ _ Hs) as (Hn & Hr & Hc).
    exists repo, chart. repeat split; auto.
Qed.

(** ** search *)

Lemma search_charts_trace (keyword : string) :
  trace (search_charts w keyword) = [EvGet search_url (search_params keyword)].
Proof.
  unfold trace, run, search_charts, bind at 1.
  pose proof (session_get_trace search_url (search_params keyword) []) as G.
  destruct (session_get w search_url (search_params keyword) []) as [[r|e] t'];
    simpl in G; subst t'; simpl; [|reflexivity].
  unfold bind, raise_for_status, response_json, py_get, raise, ret.
  destruct ((400 <=? status_code r)%Z && (status_code r <? 600)%Z); simpl;
    [reflexivity|].
  destruct (json_body r) as [[| | | | |fields]|]; simpl; try reflexivity.
  now destruct (dict_lookup "packages" fields).
Qed.

Lemma shown_results_app (l1 l2 : list (list piece)) :
  shown_results (l1 ++ l2) = shown_results l1 + shown_results l2.
Proof. unfold shown_results. now rewrite filter_app, length_app. Qed.

Lemma prints_at_most_ret {A} (a : A) : prints_at_most 0 (ret a).
Proof. intros t. exists []. simpl. now rewrite app_nil_r. Qed.

Lemma prints_at_most_raise {A} (e : exn) : prints_at_most 0 (@raise A e).
Proof. intros t. exists []. simpl. now rewrite app_nil_r. Qed.

Lemma prints_at_most_print (line : list piece) :
  prints_at_most (if is_name_line line then 1 else 0) (print line).
Proof.
  intros t. exists [line]. split; [reflexivity|].
  unfold shown_results. simpl. now destruct (is_name_line line).
Qed.

Lemma prints_at_most_bind {A B} (n k : nat) (m : M A) (f : A -> M B) :
  prints_at_most n m -> (forall a, prints_at_most k (f a)) ->
  prints_at_most (n + k) (bind m f).
Proof.
  intros Hm Hf t. destruct (Hm t) as (l1 & E1 & B1). unfold bind.
  destruct (m t) as [[a|e] t']; simpl in E1; subst t'.
  - destruct (Hf a (t ++ map EvPrint l1)) as (l2 & E2 & B2).
    exists (l1 ++ l2). rewrite E2, map_app, app_assoc, shown_results_app.
    split; [reflexivity | lia].
  - exists l1. split; [reflexivity | lia].
Qed.

Lemma prints_at_most_weaken {A} (n k : nat) (m : M A) :
  n <= k -> prints_at_most n m -> prints_at_most k m.
Proof.
  intros Hle Hm t. destruct (Hm t) as (l & E & B). exists l. split; [exact E | lia].
Qed.

Lemma py_getitem_silent (v : json) (k : string) : prints_at_most 0 (py_getitem v k).
Proof.
  destruct v; simpl; try apply prints_at_most_raise.
  destruct (dict_lookup k fields);
    [apply prints_at_most_ret | apply prints_at_most_raise].
Qed.

Lemma py_get_silent (v : json) (k : string) (d : json) : prints_at_most 0 (py_get v k d).
Proof.
  destruct v; simpl; try apply prints_at_most_raise.
  destruct (dict_lookup k fields); apply prints_at_most_ret.
Qed.

Lemma show_chart_prints (chart : json) : prints_at_most 1 (show_chart chart).
Proof.
  unfold show_chart.
  apply (prints_at_most_bind 0 1); [apply py_getitem_silent | intros name].
  apply (prints_at_most_bind 1 0); [apply (prints_at_most_print [Txt name_label; Val name]) | intros _].
  apply (prints_at_most_bind 0 0); [apply py_getitem_silent | intros repository].
  apply (prints_at_most_bind 0 0); [apply py_getitem_silent | intros repository_name].
  apply (prints_at_most_bind 0 0);
    [apply (prints_at_most_print [Txt "Repository: "; Val repository_name]) | intros _].
  apply (prints_at_most_bind 0 0); [apply py_getitem_silent | intros description].
  apply (prints_at_most_bind 0 0);
    [apply (prints_at_most_print [Txt "Description: "; Val description]) | intros _].
  apply (prints_at_most_bind 0 0); [apply py_get_silent | intros version].
  apply (prints_at_most_print [Txt "Version: "; Val version]).
Qed.

Lemma for_each_show_chart_prints (items : list json) :
  prints_at_most (length items) (for_each items show_chart).
Proof.
  induction items as [|c rest IH]; simpl; [apply prints_at_most_ret|].
  apply (prints_at_most_bind 1 (length rest)); [apply show_chart_prints | intros _; exact IH].
Qed.

Lemma length_chars_of (s : string) : length (chars_of s) = String.length s.
Proof. induction s; simpl; congruence. Qed.

Lemma length_string_firstn (n : nat) (s : string) :
  String.length (string_firstn n s) <= n.
Proof.
  revert s. induction n as [|n IH]; intros [|c s]; simpl; try lia.
  specialize (IH s). lia.
Qed.

Lemma show_top_prints (charts : json) :
  prints_at_most 5
    (top <- py_slice_to 5 charts ;; items <- py_iter top ;; for_each items show_chart).
Proof.
  destruct charts; simpl;
    try (apply (prints_at_most_weaken 0); [lia|];
         intros t; exists []; simpl; now rewrite app_nil_r).
  - intros t. unfold bind. simpl.
    destruct (for_each_show_chart_prints (chars_of (string_firstn 5 s)) t)
      as (l & E & B).
    exists l. split; [exact E|].
    rewrite length_chars_of in B. pose proof (length_string_firstn 5 s). lia.
  - intros t. unfold bind. simpl.
    destruct (for_each_show_chart_prints (firstn 5 items) t) as (l & E & B).
    exists l. split; [exact E|].
    pose proof (firstn_le_length 5 items).
    assert (length (firstn 5 items) <= 5) by (rewrite length_firstn; lia). lia.
Qed.

Lemma is_Exception_all (e : exn) : is_Exception e = true.
Proof. now destruct e. Qed.

(** What the handler of [main] does with the outcome of the dispatch. *)
Lemma main_run (a : args) :
  run (main w a)
  = match run (dispatch w a) with
    | (Ok x, t) => (Ok x, t)
    | (Err e, t) => (Ok tt, t ++ [EvPrint [Txt "Error: "; ExnStr e]])
    end.
Proof.
  unfold run, main, try_except.
  destruct (dispatch w a []) as [[x|e] t]; [reflexivity|].
  now rewrite is_Exception_all.
Qed.

Lemma dispatch_search_run (keyword : string) :
  run (dispatch w (Search keyword))
  = match outcome (search_charts w keyword) with
    | Ok charts =>
        (top <- py_slice_to 5 charts ;; items <- py_iter top ;; for_each items show_chart)
          [EvGet search_url (search_params keyword)]
    | Err e => (Err e, [EvGet search_url (search_params keyword)])
    end.
Proof.
  pose proof (search_charts_trace keyword) as T.
  unfold outcome, trace, run in *. simpl. unfold bind at 1.
  destruct (search_charts w keyword []) as [[charts|e] t]; simpl in T; now subst t.
Qed.

Lemma show_chart_well_formed (chart : json) (t : list event) :
  well_formed_chart chart = true ->
  show_chart chart t = (Ok tt, t ++ chart_lines chart).
Proof.
  destruct chart as [| | | | |fields]; try discriminate.
  unfold well_formed_chart, show_chart, chart_lines, field, bind, py_getitem, py_get,
    print, ret.
  destruct (dict_lookup "name" fields) as [n|]; [|discriminate].
  destruct (dict_lookup "repository" fields) as [[| | | | |rf]|]; try discriminate.
  destruct (dict_lookup "description" fields) as [d|]; [|discriminate].
  destruct (dict_lookup "name" rf) as [rn|]; [|discriminate].
  intros _. destruct (dict_lookup "version" fields) as [v|];
    now rewrite <- !app_assoc.
Qed.

Lemma for_each_well_formed (items : list json) (t : list event) :
  forallb well_formed_chart items = true ->
  for_each items show_chart t = (Ok tt, t ++ flat_map chart_lines items).
Proof.
  revert t. induction items as [|c rest IH]; intros t; simpl.
  - intros _. unfold ret. now rewrite app_nil_r.
  - intros H. apply andb_prop in H. destruct H as [Hc Hrest].
    unfold bind. rewrite (show_chart_well_formed c t Hc), (IH _ Hrest).
    now rewrite <- app_assoc.
Qed.

(** C2.  For every keyword and every world: the trace of [search_charts] is
    exactly one GET, to the search endpoint, with the query parameters
    [kind=0], [ts_query=keyword] and [sort=relevance], in that order; the
    search command issues that GET and then only prints, and what it prints
    displays at most 5 results; and when the operation returns a list whose
    first five entries are well-formed chart summaries, the command prints
    exactly the four lines of each of the first five entries, in order, and
    nothing of the entries beyond the fifth. *)
Theorem search_one_get_and_top_five (keyword : string) :
  trace (search_charts w keyword)
  = [EvGet "https://artifacthub.io/api/v1/packages/search"
       [("kind", "0"); ("ts_query", keyword); ("sort", "relevance")]]
  /\ (exists lines,
        trace (main w (Search keyword))
        = EvGet search_url (search_params keyword) :: map EvPrint lines
        /\ shown_results lines <= 5)
  /\ (forall items,
        outcome (search_charts w keyword) = Ok (JArr items) ->
        forallb well_formed_chart (firstn 5 items) = true ->
        run (main w (Search keyword))
        = (Ok tt, EvGet search_url (search_params keyword)
                    :: flat_map chart_lines (firstn 5 items))).
Proof.
  split; [exact (search_charts_trace keyword)|]. split.
  - unfold trace. rewrite main_run, dispatch_search_run.
    destruct (outcome (search_charts w keyword)) as [charts|e].
    + destruct (show_top_prints charts [EvGet search_url (search_params keyword)])
        as (lines & E & B).
      destruct ((top <- py_slice_to 5 charts ;; items <- py_iter top ;;
                 for_each items show_chart)
                  [EvGet search_url (search_params keyword)]) as [[x|e] t];
        simpl in E; subst t.
      * exists lines. split; [reflexivity | exact B].
      * exists (lines ++ [[Txt "Error: "; ExnStr e]]). simpl.
        rewrite map_app, shown_results_app. split; [reflexivity|].
        unfold shown_results at 2. simpl. lia.
    + exists [[Txt "Error: "; ExnStr e]]. split; [reflexivity|].
      unfold shown_results. simpl. lia.
  - intros items Hout Hwf.
    rewrite main_run, dispatch_search_run, Hout.
    unfold bind. simpl.
    now rewrite (for_each_well_formed _ _ Hwf).
Qed.

(** ** Operations that run the binary *)

Lemma guarded_command_run (cmd : list string) (prefix : string) (t : list event) :
  try_except (subprocess_run w cmd false ;;; ret tt) is_CalledProcessError
    (fun e => raise (Exception_ prefix e)) t
  = (match run_process w t cmd with
     | SpawnFailure => Err OSError
     | Exited rc _ =>
         if (rc =? 0)%Z then Ok tt
         else Err (Exception_ prefix (CalledProcessError rc cmd))
     end, t ++ [EvRun cmd false]).
Proof.
  unfold try_except, bind, subprocess_run, raise, ret.
  destruct (run_process w t cmd) as [|rc out]; [reflexivity|].
  now destruct (rc =? 0)%Z.
Qed.

Lemma list_releases_run (namespace : option string) :
  run (list_releases w namespace)
  = (match run_process w [] (list_cmd namespace) with
     | SpawnFailure => Err OSError
     | Exited rc out =>
         if (rc =? 0)%Z then Ok out
         else Err (Exception_ "Failed to list releases: "
                     (CalledProcessError rc (list_cmd namespace)))
     end, [EvRun (list_cmd namespace) true]).
Proof.
  unfold run, list_releases, try_except, subprocess_run, raise.
  destruct (run_process w [] (list_cmd namespace)) as [|rc out]; [reflexivity|].
  now destruct (rc =? 0)%Z.
Qed.

Lemma add_helm_repo_run (name url : string) :
  run (add_helm_repo w name url)
  = match run_process w [] ["helm"; "repo"; "add"; name; url] with
    | SpawnFailure => (Err OSError, [EvRun ["helm"; "repo"; "add"; name; url] false])
    | Exited rc _ =>
        if (rc =? 0)%Z
        then (match run_process w [EvRun ["helm"; "repo"; "add"; name; url] false]
                      ["helm"; "repo"; "update"] with
              | SpawnFailure => Err OSError
              | Exited rc2 _ =>
                  if (rc2 =? 0)%Z then Ok tt
                  else Err (Exception_ "Failed to add Helm repository: "
                              (CalledProcessError rc2 ["helm"; "repo"; "update"]))
              end,
              [EvRun ["helm"; "repo"; "add"; name; url] false;
               EvRun ["helm"; "repo"; "update"] false])
        else (Err (Exception_ "Failed to add Helm repository: "
                     (CalledProcessError rc ["helm"; "repo"; "add"; name; url])),
              [EvRun ["helm"; "repo"; "add"; name; url] false])
    end.
Proof.
  unfold run, add_helm_repo, try_except, bind, subprocess_run, raise, ret.
  destruct (run_process w [] ["helm"; "repo"; "add"; name; url]) as [|rc out];
    [reflexivity|].
  destruct (rc =? 0)%Z; [|reflexivity]. simpl.
  destruct (run_process w _ ["helm"; "repo"; "update"]) as [|rc2 out2];
    [reflexivity|].
  now destruct (rc2 =? 0)%Z.
Qed.

(** ** installChart *)

(** C3, as the code has it.  Without a version the one command run is
    [helm install R name --namespace N], nothing after the namespace; with a
    version that is not the empty string it is the same list followed by
    ["--version"] and the version, so that the flag and its value stand
    after the chart reference. *)
Theorem install_chart_version_flag (name release_name namespace : string) :
  trace (install_chart w name release_name namespace None)
  = [EvRun ["helm"; "install"; release_name; name; "--namespace"; namespace] false]
  /\ (forall v, v <> "" ->
        trace (install_chart w name release_name namespace (Some v))
        = [EvRun ["helm"; "install"; release_name; name; "--namespace"; namespace;
                  "--version"; v] false]).
Proof.
  unfold trace, run, install_chart. split.
  - now rewrite guarded_command_run.
  - intros v Hv. rewrite guarded_command_run.
    destruct v as [|c v']; [now contradiction Hv | reflexivity].
Qed.

(** C9.  An empty-string version: the one command run is
    [helm install R name --namespace N], without ["--version"], and the whole
    operation is the one performed when no version is given. *)
Theorem install_chart_empty_version (name release_name namespace : string) :
  trace (install_chart w name release_name namespace (Some ""))
  = [EvRun ["helm"; "install"; release_name; name; "--namespace"; namespace] false]
  /\ install_cmd name release_name namespace (Some "")
     = install_cmd name release_name namespace None
  /\ run (install_chart w name release_name namespace (Some ""))
     = run (install_chart w name release_name namespace None).
Proof.
  split; [|split; reflexivity].
  unfold trace, run, install_chart. now rewrite guarded_command_run.
Qed.

(** ** addRepository *)

(** C4.  When the repository-add command exits with a non-zero status,
    [add_helm_repo] raises, and its trace is that one command: the update
    was not attempted.  And in every world, an update in the trace means
    that the add command ran first and exited with status 0. *)
Theorem add_helm_repo_fail_fast (name url : string) :
  (forall rc out,
     run_process w [] ["helm"; "repo"; "add"; name; url] = Exited rc out ->
     rc <> 0%Z ->
     run (add_helm_repo w name url)
     = (Err (Exception_ "Failed to add Helm repository: "
               (CalledProcessError rc ["helm"; "repo"; "add"; name; url])),
        [EvRun ["helm"; "repo"; "add"; name; url] false]))
  /\ (forall capture,
        In (EvRun ["helm"; "repo"; "update"] capture) (trace (add_helm_repo w name url)) ->
        (exists out,
           run_process w [] ["helm"; "repo"; "add"; name; url] = Exited 0 out)
        /\ trace (add_helm_repo w name url)
           = [EvRun ["helm"; "repo"; "add"; name; url] false;
              EvRun ["helm"; "repo"; "update"] false]).
Proof.
  split.
  - intros rc out Hrun Hrc. rewrite add_helm_repo_run, Hrun.
    apply Z.eqb_neq in Hrc. now rewrite Hrc.
  - intros capture. unfold trace. rewrite add_helm_repo_run.
    destruct (run_process w [] ["helm"; "repo"; "add"; name; url]) as [|rc out].
    + simpl. intros [H|[]]. discriminate H.
    + destruct (rc =? 0)%Z eqn:E.
      * intros _. apply Z.eqb_eq in E. subst rc. split; [now exists out | reflexivity].
      * simpl. intros [H|[]]. discriminate H.
Qed.

(** ** search, malformed body *)

(** C5, as the code has it.  When the response passes the status check (its
    status is not 4xx or 5xx) and its body is a JSON object with no
    ["packages"] key, [search_charts] returns the empty list. *)
Theorem search_charts_missing_packages
    (keyword : string) (r : response) (fields : list (string * json)) :
  http_get w [] search_url (search_params keyword) = Responded r ->
  ((400 <=? status_code r) && (status_code r <? 600))%Z = false ->
  json_body r = Some (JObj fields) ->
  dict_lookup "packages" fields = None ->
  outcome (search_charts w keyword) = Ok (JArr []).
Proof.
  intros Hget Hstatus Hbody Hkey.
  unfold outcome, run, search_charts, bind, session_get, raise_for_status, response_json.
  rewrite Hget, Hstatus. simpl. rewrite Hbody. simpl. now rewrite Hkey.
Qed.

(** ** uninstallRelease *)

(** C6.  For every release name and namespace the one command run is
    [helm] with the arguments [uninstall R -n N] in that order; for ["r1"]
    and ["default"] they are [uninstall r1 -n default]. *)
Theorem uninstall_release_command (release_name namespace : string) :
  trace (uninstall_release w release_name namespace)
  = [EvRun ("helm" :: ["uninstall"; release_name; "-n"; namespace]) false]
  /\ trace (uninstall_release w "r1" "default")
     = [EvRun ("helm" :: ["uninstall"; "r1"; "-n"; "default"]) false].
Proof.
  unfold trace, run, uninstall_release. now rewrite !guarded_command_run.
Qed.

(** ** listReleases *)

(** C7.  Without a namespace the one command run is [helm list], with
    output captured and no namespace flag; with the namespace ["ns1"] it is
    [helm list -n ns1], and for every namespace [N] other than the empty
    string it is [helm list -n N]; and for either (indeed any) namespace
    argument, when the command exits with status 0 the operation returns
    the captured output unchanged. *)
Theorem list_releases_command_and_output :
  trace (list_releases w None) = [EvRun ["helm"; "list"] true]
  /\ trace (list_releases w (Some "ns1")) = [EvRun ["helm"; "list"; "-n"; "ns1"] true]
  /\ (forall namespace,
        namespace <> "" ->
        trace (list_releases w (Some namespace))
        = [EvRun ["helm"; "list"; "-n"; namespace] true])
  /\ (forall namespace out,
        run_process w [] (list_cmd namespace) = Exited 0 out ->
        outcome (list_releases w namespace) = Ok out).
Proof.
  unfold trace, outcome. rewrite !list_releases_run. repeat split.
  - intros namespace Hn. rewrite list_releases_run.
    destruct namespace as [|c n]; [now contradiction Hn | reflexivity].
  - intros namespace out H. now rewrite list_releases_run, H.
Qed.

(** C10.  An empty-string namespace: the command is [helm list] without
    ["-n"], the one built for no namespace, and the whole operation is the
    same. *)
Theorem list_releases_empty_namespace :
  list_cmd (Some "") = ["helm"; "list"]
  /\ list_cmd (Some "") = list_cmd None
  /\ trace (list_releases w (Some "")) = [EvRun ["helm"; "list"] true]
  /\ run (list_releases w (Some "")) = run (list_releases w None).
Proof.
  repeat split. unfold trace. now rewrite list_releases_run.
Qed.

(** ** The top-level handler *)

Lemma then_ret_run {A} (m : M A) (t : list event) :
  (m ;;; ret tt) t
  = (match fst (m t) with Ok _ => Ok tt | Err e => Err e end, snd (m t)).
Proof. unfold bind, ret. now destruct (m t) as [[a|e] t']. Qed.

(** A failure of the facade operation is the failure of the dispatch, with
    the same trace: nothing runs after it inside [try]. *)
Lemma dispatch_of_facade_error (a : args) (e : exn) :
  outcome (facade_call w a) = Err e ->
  run (dispatch w a) = (Err e, trace (facade_call w a)).
Proof.
  unfold outcome, trace, run.
  destruct a as [|keyword|name|name release_name namespace version|namespace
                 |release_name namespace]; simpl.
  - discriminate.
  - rewrite then_ret_run. unfold bind at 1.
    destruct (search_charts w keyword []) as [[x|e'] t]; simpl; congruence.
  - rewrite then_ret_run. unfold bind at 1.
    destruct (get_chart_details w name []) as [[x|e'] t]; simpl; congruence.
  - unfold bind at 1.
    destruct (install_chart w name release_name namespace version [])
      as [[x|e'] t]; simpl; congruence.
  - rewrite then_ret_run. unfold bind at 1.
    destruct (list_releases w namespace []) as [[x|e'] t]; simpl; congruence.
  - unfold bind at 1.
    destruct (uninstall_release w release_name namespace []) as [[x|e'] t];
      simpl; congruence.
Qed.

(** The facade itself prints nothing. *)
Lemma facade_call_no_error_line (a : args) :
  filter is_error_line (trace (facade_call w a)) = [].
Proof.
  destruct a as [|keyword|name|name release_name namespace version|namespace
                 |release_name namespace]; simpl.
  - reflexivity.
  - unfold trace, run. rewrite then_ret_run. simpl.
    pose proof (search_charts_trace keyword) as T. unfold trace, run in T.
    now rewrite T.
  - unfold trace, run. rewrite then_ret_run. simpl.
    pose proof (get_chart_details_trace name) as T. unfold trace, run in T.
    rewrite T. now destruct (split_on slash name) as [|repo [|chart [|x l]]].
  - unfold trace, run, install_chart. now rewrite guarded_command_run.
  - unfold trace, run. rewrite then_ret_run.
    pose proof (list_releases_run namespace) as T. unfold run in T. now rewrite T.
  - unfold trace, run, uninstall_release. now rewrite guarded_command_run.
Qed.

(** C8.  For every command and every world [main] returns normally, so the
    exit status is 0.  When the dispatch fails with [e], the trace of [main]
    is that of the dispatch followed by the line ["Error: " str(e)].  When
    the facade operation of the command fails with [e], [main] returns
    normally, its trace is the trace of the facade operation followed by
    that line, and the line is the only ["Error: "] line printed. *)
Theorem main_swallows_errors (a : args) :
  outcome (main w a) = Ok tt
  /\ exit_status w a = 0%Z
  /\ (forall e,
        outcome (dispatch w a) = Err e ->
        trace (main w a) = trace (dispatch w a) ++ [EvPrint [Txt "Error: "; ExnStr e]])
  /\ (forall e,
        outcome (facade_call w a) = Err e ->
        run (main w a)
        = (Ok tt, trace (facade_call w a) ++ [EvPrint [Txt "Error: "; ExnStr e]])
        /\ length (filter is_error_line (trace (main w a))) = 1).
Proof.
  assert (Hok : outcome (main w a) = Ok tt).
  { unfold outcome. rewrite main_run.
    destruct (run (dispatch w a)) as [[[]|e] t]; reflexivity. }
  split; [exact Hok|]. split; [unfold exit_status; now rewrite Hok|]. split.
  - intros e. unfold outcome, trace. rewrite main_run.
    destruct (run (dispatch w a)) as [[x|e'] t]; simpl; [discriminate|].
    now intros [= ->].
  - intros e He. unfold trace at 2. rewrite main_run.
    rewrite (dispatch_of_facade_error a e He). split; [reflexivity|].
    simpl. rewrite filter_app, facade_call_no_error_line. reflexivity.
Qed.

End Properties.

(** * The statements at concrete inputs *)

Lemma get_chart_details_validates_first_witness :
  run (get_chart_details empty_object_world "bitnami") = (Err (ValueError 1), [])
  /\ count_char slash "bitnami/redis" = 1
  /\ trace (get_chart_details empty_object_world "bitnami/redis")
     = [EvGet "https://artifacthub.io/api/v1/packages/helm/bitnami/redis" []].
Proof.
  split.
  - apply (proj1 (get_chart_details_validates_first empty_object_world "bitnami")).
    vm_compute. discriminate.
  - destruct (proj2 (get_chart_details_validates_first empty_object_world "bitnami/redis")
                "https://artifacthub.io/api/v1/packages/helm/bitnami/redis" [])
      as (Hc & repo & chart & _ & _ & _ & _ & _ & _ & Ht).
    + vm_compute. left. reflexivity.
    + split; [exact Hc | exact Ht].
Defined.

Lemma search_one_get_and_top_five_witness :
  outcome (search_charts seven_results_world "redis") = Ok (JArr seven_charts)
  /\ forallb well_formed_chart (firstn 5 seven_charts) = true
  /\ run (main seven_results_world (Search "redis"))
     = (Ok tt,
        EvGet search_url (search_params "redis")
          :: flat_map chart_lines (map sample_chart ["c1"; "c2"; "c3"; "c4"; "c5"])).
Proof.
  split; [reflexivity|]. split; [reflexivity|].
  apply (proj2 (proj2 (search_one_get_and_top_five seven_results_world "redis"))
           seven_charts); reflexivity.
Defined.

(** C3 as stated fails for a version that is the empty string: the command
    run then has no ["--version"] in it. *)
Lemma install_chart_supplied_empty_version_no_flag :
  trace (install_chart empty_object_world "bitnami/redis" "r1" "default" (Some ""))
  = [EvRun ["helm"; "install"; "r1"; "bitnami/redis"; "--namespace"; "default"] false]
  /\ ~ In "--version" ["helm"; "install"; "r1"; "bitnami/redis"; "--namespace"; "default"].
Proof.
  split; [reflexivity|].
  simpl. intros H. repeat (destruct H as [H|H]; [discriminate H|]). exact H.
Qed.

Lemma install_chart_version_flag_witness :
  "1.2.3" <> ""
  /\ trace (install_chart empty_object_world "bitnami/redis" "r1" "default" (Some "1.2.3"))
     = [EvRun ["helm"; "install"; "r1"; "bitnami/redis"; "--namespace"; "default";
               "--version"; "1.2.3"] false].
Proof.
  split; [discriminate|].
  apply (proj2 (install_chart_version_flag empty_object_world "bitnami/redis" "r1" "default")).
  discriminate.
Defined.

Lemma add_helm_repo_fail_fast_witness :
  run_process failing_helm_world [] ["helm"; "repo"; "add"; "bitnami"; "https://charts.bitnami.com/bitnami"]
  = Exited 1 ""
  /\ run (add_helm_repo failing_helm_world "bitnami" "https://charts.bitnami.com/bitnami")
     = (Err (Exception_ "Failed to add Helm repository: "
               (CalledProcessError 1
                  ["helm"; "repo"; "add"; "bitnami"; "https://charts.bitnami.com/bitnami"])),
        [EvRun ["helm"; "repo"; "add"; "bitnami"; "https://charts.bitnami.com/bitnami"] false])
  /\ trace (add_helm_repo empty_object_world "bitnami" "https://charts.bitnami.com/bitnami")
     = [EvRun ["helm"; "repo"; "add"; "bitnami"; "https://charts.bitnami.com/bitnami"] false;
        EvRun ["helm"; "repo"; "update"] false].
Proof.
  split; [reflexivity|]. split.
  - apply (proj1 (add_helm_repo_fail_fast failing_helm_world "bitnami"
                    "https://charts.bitnami.com/bitnami") 1%Z "");
      [reflexivity | discriminate].
  - apply (proj2 (add_helm_repo_fail_fast empty_object_world "bitnami"
                    "https://charts.bitnami.com/bitnami") false).
    vm_compute. right. left. reflexivity.
Defined.

(** C5 as stated fails for a body that is not a JSON object: a response
    with status 200 whose body is the array [[]] has no ["packages"] field,
    and the operation raises [AttributeError]. *)
Lemma search_charts_array_body_raises :
  http_get array_body_world [] search_url (search_params "redis")
  = Responded (mkResponse 200 (Some (JArr [])))
  /\ outcome (search_charts array_body_world "redis") = Err AttributeError.
Proof. split; reflexivity. Qed.

Lemma search_charts_missing_packages_witness :
  outcome (search_charts empty_object_world "redis") = Ok (JArr []).
Proof.
  apply (search_charts_missing_packages empty_object_world "redis"
           (mkResponse 200 (Some (JObj []))) []); reflexivity.
Defined.

Lemma list_releases_command_and_output_witness :
  "prod" <> ""
  /\ trace (list_releases empty_object_world (Some "prod"))
     = [EvRun ["helm"; "list"; "-n"; "prod"] true]
  /\ run_process empty_object_world [] (list_cmd (Some "ns1")) = Exited 0 "NAME"
  /\ outcome (list_releases empty_object_world (Some "ns1")) = Ok "NAME".
Proof.
  split; [discriminate|]. split.
  - apply (proj1 (proj2 (proj2 (list_releases_command_and_output empty_object_world)))
             "prod").
    discriminate.
  - split; [reflexivity|].
    apply (proj2 (proj2 (proj2 (list_releases_command_and_output empty_object_world)))
             (Some "ns1") "NAME").
    reflexivity.
Defined.

Lemma main_swallows_errors_witness :
  outcome (facade_call failing_helm_world (Uninstall "r1" "default"))
  = Err (Exception_ "Failed to uninstall release: "
           (CalledProcessError 1 ["helm"; "uninstall"; "r1"; "-n"; "default"]))
  /\ run (main failing_helm_world (Uninstall "r1" "default"))
     = (Ok tt,
        [EvRun ["helm"; "uninstall"; "r1"; "-n"; "default"] false;
         EvPrint [Txt "Error: ";
                  ExnStr (Exception_ "Failed to uninstall release: "
                            (CalledProcessError 1
                               ["helm"; "uninstall"; "r1"; "-n"; "default"]))]])
  /\ trace (main seven_results_world (Info "bitnami"))
     = [EvPrint [Txt "Error: "; ExnStr (ValueError 1)]].
Proof.
  split; [reflexivity|]. split.
  - apply (proj1 (proj2 (proj2 (proj2
             (main_swallows_errors failing_helm_world (Uninstall "r1" "default"))))
             _ eq_refl)).
  - apply (proj1 (proj2 (proj2
             (main_swallows_errors seven_results_world (Info "bitnami"))))
             (ValueError 1)).
    reflexivity.
Defined.

(** * Further properties of the facade and of the command line *)

Lemma split_on_of_one_sep (sep : ascii) (s : string) :
  count_char sep s = 1 -> exists a b, split_on sep s = [a; b].
Proof.
  intros H. pose proof (split_on_length sep s) as L. rewrite H in L.
  destruct (split_on sep s) as [|a [|b [|c l]]]; try discriminate L.
  now exists a, b.
Qed.

Lemma details_url_of_name (name repo chart : string) :
  split_on slash name = [repo; chart] ->
  details_url repo chart = (ARTIFACT_HUB_API ++ "/packages/helm/" ++ name)%string.
Proof.
  intros H. destruct (split_on_pair _ _ _ _ H) as (-> & _ & _). reflexivity.
Qed.

Section Outcomes.

Variable w : World.

(** ** What the two HTTP operations return and raise *)

Lemma search_charts_run (keyword : string) :
  run (search_charts w keyword)
  = (match http_get w [] search_url (search_params keyword) with
     | TransportFailure => Err RequestException
     | Responded r =>
         if ((400 <=? status_code r) && (status_code r <? 600))%Z
         then Err (HTTPError (status_code r))
         else match json_body r with
              | None => Err JSONDecodeError
              | Some (JObj fields) =>
                  Ok (match dict_lookup "packages" fields with
                      | Some x => x
                      | None => JArr []
                      end)
              | Some _ => Err AttributeError
              end
     end, [EvGet search_url (search_params keyword)]).
Proof.
  unfold run, search_charts, bind, session_get, raise_for_status, response_json,
    py_get, raise, ret.
  destruct (http_get w [] search_url (search_params keyword)) as [|r]; [reflexivity|].
  destruct ((400 <=? status_code r) && (status_code r <? 600))%Z; [reflexivity|].
  destruct (json_body r) as [[| | | | |fields]|]; try reflexivity.
  now destruct (dict_lookup "packages" fields).
Qed.

Lemma get_chart_details_run (name repo chart : string) :
  split_on slash name = [repo; chart] ->
  run (get_chart_details w name)
  = (match http_get w [] (details_url repo chart) [] with
     | TransportFailure => Err RequestException
     | Responded r =>
         if ((400 <=? status_code r) && (status_code r <? 600))%Z
         then Err (HTTPError (status_code r))
         else match json_body r with
              | None => Err JSONDecodeError
              | Some j => Ok j
              end
     end, [EvGet (details_url repo chart) []]).
Proof.
  intros Hs.
  unfold run, get_chart_details, bind, session_get, raise_for_status, response_json,
    raise, ret.
  rewrite Hs. simpl.
  destruct (http_get w [] (details_url repo chart) []) as [|r]; [reflexivity|].
  destruct ((400 <=? status_code r) && (status_code r <? 600))%Z; [reflexivity|].
  now destruct (json_body r).
Qed.

(** X1.  A name with exactly one ["/"] always leads to exactly one GET, and
    its URL is the details prefix followed by the name as it was given,
    character for character: nothing is escaped, and an empty repository or
    chart part is accepted. *)
Theorem get_chart_details_url_verbatim (name : string) :
  count_char slash name = 1 ->
  trace (get_chart_details w name)
  = [EvGet ("https://artifacthub.io/api/v1/packages/helm/" ++ name)%string []].
Proof.
  intros H. destruct (split_on_of_one_sep _ _ H) as (repo & chart & Hs).
  unfold trace. rewrite (get_chart_details_run _ _ _ Hs).
  simpl. now rewrite (details_url_of_name _ _ _ Hs).
Qed.

(** X2.  [get_chart_details] returns a value exactly when the name has one
    ["/"], the request is answered, the status is not 4xx or 5xx and the
    body parses as JSON; the value is then the parsed body, of whatever
    JSON type. *)
Theorem get_chart_details_success (name : string) (v : json) :
  outcome (get_chart_details w name) = Ok v
  <-> count_char slash name = 1
      /\ exists r,
           http_get w [] (ARTIFACT_HUB_API ++ "/packages/helm/" ++ name)%string []
           = Responded r
           /\ ((400 <=? status_code r) && (status_code r <? 600))%Z = false
           /\ json_body r = Some v.
Proof.
  split.
  - intros H.
    destruct (Nat.eq_dec (count_char slash name) 1) as [Hc|Hc].
    + split; [exact Hc|].
      destruct (split_on_of_one_sep _ _ Hc) as (repo & chart & Hs).
      unfold outcome in H. rewrite (get_chart_details_run _ _ _ Hs) in H.
      rewrite (details_url_of_name _ _ _ Hs) in H. simpl in H.
      destruct (http_get w [] _ []) as [|r]; [discriminate H|].
      exists r. split; [reflexivity|].
      destruct ((400 <=? status_code r) && (status_code r <? 600))%Z;
        [discriminate H|]. split; [reflexivity|].
      destruct (json_body r); [congruence | discriminate H].
    + exfalso. unfold outcome, run, get_chart_details, bind in H.
      rewrite unpack_pair_fails in H; [discriminate H|].
      rewrite split_on_length. lia.
  - intros (Hc & r & Hget & Hst & Hbody).
    destruct (split_on_of_one_sep _ _ Hc) as (repo & chart & Hs).
    unfold outcome. rewrite (get_chart_details_run _ _ _ Hs).
    rewrite (details_url_of_name _ _ _ Hs), Hget, Hst, Hbody. reflexivity.
Qed.

(** X3.  [search_charts] returns a value exactly when the request is
    answered, the status is not 4xx or 5xx and the body is a JSON object;
    the value is what the object holds under ["packages"], unchanged and of
    whatever JSON type, or the empty list when the key is absent. *)
Theorem search_charts_success (keyword : string) (v : json) :
  outcome (search_charts w keyword) = Ok v
  <-> exists r fields,
        http_get w [] search_url (search_params keyword) = Responded r
        /\ ((400 <=? status_code r) && (status_code r <? 600))%Z = false
        /\ json_body r = Some (JObj fields)
        /\ v = match dict_lookup "packages" fields with
               | Some x => x
               | None => JArr []
               end.
Proof.
  unfold outcome. rewrite search_charts_run. simpl. split.
  - destruct (http_get w [] search_url (search_params keyword)) as [|r];
      [discriminate|].
    destruct ((400 <=? status_code r) && (status_code r <? 600))%Z eqn:Hst;
      [discriminate|].
    destruct (json_body r) as [[| | | | |fields]|] eqn:Hb; try discriminate.
    intros [= <-]. exists r, fields. now rewrite Hb.
  - intros (r & fields & -> & -> & Hb & ->). now rewrite Hb.
Qed.

(** X4.  When the response has a status between 400 and 599, both HTTP
    operations raise [HTTPError] with that status right after their one
    request, whatever the body is: the status is checked before the body is
    read.  For [get_chart_details] this is for a name with exactly one
    ["/"]. *)
Theorem http_error_status_raises (s : Z) (body : option json) :
  (400 <= s < 600)%Z ->
  (forall keyword,
     http_get w [] search_url (search_params keyword) = Responded (mkResponse s body) ->
     run (search_charts w keyword)
     = (Err (HTTPError s), [EvGet search_url (search_params keyword)]))
  /\ (forall name,
        count_char slash name = 1 ->
        http_get w [] (ARTIFACT_HUB_API ++ "/packages/helm/" ++ name)%string []
        = Responded (mkResponse s body) ->
        run (get_chart_details w name)
        = (Err (HTTPError s),
           [EvGet (ARTIFACT_HUB_API ++ "/packages/helm/" ++ name)%string []])).
Proof.
  intros Hs.
  assert (E : ((400 <=? s) && (s <? 600))%Z = true).
  { apply andb_true_intro. split; [apply Z.leb_le | apply Z.ltb_lt]; lia. }
  split.
  - intros keyword Hget. rewrite search_charts_run, Hget. simpl. now rewrite E.
  - intros name Hc Hget.
    destruct (split_on_of_one_sep _ _ Hc) as (repo & chart & Hsp).
    rewrite (get_chart_details_run _ _ _ Hsp), (details_url_of_name _ _ _ Hsp), Hget.
    simpl. now rewrite E.
Qed.

End Outcomes.

Section Commands.

Variable w : World.

(** ** What the operations on the binary raise *)


(** ** The three commands that run the binary *)

Lemma main_install_run (name release_name namespace : string) (version : option string) :
  run (main w (Install name release_name namespace version))
  = (Ok tt,
     [EvRun (install_cmd name release_name namespace version) false;
      EvPrint
        match run_process w [] (install_cmd name release_name namespace version) with
        | SpawnFailure => [Txt "Error: "; ExnStr OSError]
        | Exited rc _ =>
            if (rc =? 0)%Z
            then [Txt "Successfully installed "; Txt name; Txt " as "; Txt release_name]
            else [Txt "Error: ";
                  ExnStr (Exception_ "Failed to install chart: "
                            (CalledProcessError rc
                               (install_cmd name release_name namespace version)))]
        end]).
Proof.
  rewrite main_run. unfold run, dispatch, bind, install_chart.
  rewrite guarded_command_run.
  destruct (run_process w [] _) as [|rc out]; [reflexivity|].
  now destruct (rc =? 0)%Z.
Qed.

Lemma main_uninstall_run (release_name namespace : string) :
  run (main w (Uninstall release_name namespace))
  = (Ok tt,
     [EvRun (uninstall_cmd release_name namespace) false;
      EvPrint
        match run_process w [] (uninstall_cmd release_name namespace) with
        | SpawnFailure => [Txt "Error: "; ExnStr OSError]
        | Exited rc _ =>
            if (rc =? 0)%Z
            then [Txt "Successfully uninstalled "; Txt release_name]
            else [Txt "Error: ";
                  ExnStr (Exception_ "Failed to uninstall release: "
                            (CalledProcessError rc (uninstall_cmd release_name namespace)))]
        end]).
Proof.
  rewrite main_run. unfold run, dispatch, bind, uninstall_release.
  rewrite guarded_command_run.
  destruct (run_process w [] _) as [|rc out]; [reflexivity|].
  now destruct (rc =? 0)%Z.
Qed.

Lemma main_list_releases_run (namespace : option string) :
  run (main w (ListReleases namespace))
  = (Ok tt,
     [EvRun (list_cmd namespace) true;
      EvPrint
        match run_process w [] (list_cmd namespace) with
        | SpawnFailure => [Txt "Error: "; ExnStr OSError]
        | Exited rc out =>
            if (rc =? 0)%Z then [Txt out]
            else [Txt "Error: ";
                  ExnStr (Exception_ "Failed to list releases: "
                            (CalledProcessError rc (list_cmd namespace)))]
        end]).
Proof.
  rewrite main_run. unfold dispatch.
  pose proof (list_releases_run w namespace) as L. unfold run in *.
  unfold bind at 1. rewrite L.
  destruct (run_process w [] _) as [|rc out]; [reflexivity|].
  now destruct (rc =? 0)%Z.
Qed.


(** ** The shape of every run *)

Lemma show_details_prints (details : json) : prints_at_most 1 (show_details details).
Proof.
  unfold show_details.
  apply (prints_at_most_bind 0 1); [apply py_getitem_silent | intros name].
  apply (prints_at_most_bind 1 0);
    [apply (prints_at_most_print [Txt name_label; Val name]) | intros _].
  apply (prints_at_most_bind 0 0); [apply py_getitem_silent | intros description].
  apply (prints_at_most_bind 0 0);
    [apply (prints_at_most_print [Txt "Description: "; Val description]) | intros _].
  apply (prints_at_most_bind 0 0); [apply py_get_silent | intros version].
  apply (prints_at_most_bind 0 0);
    [apply (prints_at_most_print [Txt "Version: "; Val version]) | intros _].
  apply (prints_at_most_bind 0 0); [apply py_getitem_silent | intros repository].
  apply (prints_at_most_bind 0 0); [apply py_getitem_silent | intros url].
  apply (prints_at_most_print [Txt "Repository URL: "; Val url]).
Qed.

(** When the dispatch leaves some calls followed by printed lines, so does
    [main]: the handler only adds a line. *)
Lemma main_keeps_shape (a : args) (calls : list event) :
  (exists lines, trace (dispatch w a) = calls ++ map EvPrint lines) ->
  exists lines, trace (main w a) = calls ++ map EvPrint lines.
Proof.
  unfold trace. rewrite main_run.
  destruct (run (dispatch w a)) as [[x|e] t]; simpl; intros (lines & ->).
  - now exists lines.
  - exists (lines ++ [[Txt "Error: "; ExnStr e]]).
    now rewrite map_app, app_assoc.
Qed.

Lemma main_info_shape (name : string) :
  exists lines,
    trace (main w (Info name)) = trace (get_chart_details w name) ++ map EvPrint lines.
Proof.
  apply main_keeps_shape.
  unfold trace, run. simpl. unfold bind at 1.
  destruct (get_chart_details w name []) as [[d|e] t]; simpl.
  - destruct (show_details_prints d t) as (lines & Hl & _). now exists lines.
  - exists []. simpl. now rewrite app_nil_r.
Qed.

Lemma main_search_shape (keyword : string) :
  exists lines,
    trace (main w (Search keyword))
    = [EvGet search_url (search_params keyword)] ++ map EvPrint lines.
Proof.
  apply main_keeps_shape.
  unfold trace. rewrite dispatch_search_run.
  destruct (outcome (search_charts w keyword)) as [charts|e].
  - destruct (show_top_prints charts [EvGet search_url (search_params keyword)])
      as (lines & Hl & _).
    now exists lines.
  - now exists [].
Qed.

(** X8.  Every run of [main] is at most one call to the outside (one GET or
    one run of the binary) followed only by printed lines: nothing is
    printed before the call, and no second call is made. *)
Theorem main_one_call_then_prints (a : args) :
  exists calls lines,
    trace (main w a) = calls ++ map EvPrint lines
    /\ (calls = []
        \/ (exists url params, calls = [EvGet url params])
        \/ (exists cmd capture, calls = [EvRun cmd capture])).
Proof.
  destruct a as [|keyword|name|name release_name namespace version|namespace
                 |release_name namespace].
  - exists [], []. split; [reflexivity | now left].
  - destruct (main_search_shape keyword) as (lines & H).
    exists [EvGet search_url (search_params keyword)], lines.
    split; [exact H | right; left; eauto].
  - destruct (main_info_shape name) as (lines & H).
    exists (trace (get_chart_details w name)), lines. split; [exact H|].
    rewrite get_chart_details_trace.
    destruct (split_on slash name) as [|repo [|chart [|x l]]]; auto.
    right. left. eauto.
  - exists [EvRun (install_cmd name release_name namespace version) false].
    unfold trace. rewrite main_install_run. simpl.
    eexists [_]. split; [reflexivity | right; right; eauto].
  - exists [EvRun (list_cmd namespace) true].
    unfold trace. rewrite main_list_releases_run. simpl.
    eexists [_]. split; [reflexivity | right; right; eauto].
  - exists [EvRun (uninstall_cmd release_name namespace) false].
    unfold trace. rewrite main_uninstall_run. simpl.
    eexists [_]. split; [reflexivity | right; right; eauto].
Qed.

Lemma no_run_among_prints (cmd : list string) (capture : bool) (lines : list (list piece)) :
  ~ In (EvRun cmd capture) (map EvPrint lines).
Proof.
  intros H. apply in_map_iff in H. destruct H as (l & H & _). discriminate H.
Qed.

(** X9.  Whatever the command line, a command that [main] runs is [helm]
    with the verb [install], [list] or [uninstall], run by the command of
    the same name: the search and info commands run nothing, and no command
    reaches [helm repo add] or [helm repo update]. *)
Theorem main_runs_only_three_verbs (a : args) (cmd : list string) (capture : bool) :
  In (EvRun cmd capture) (trace (main w a)) ->
  (exists name release_name namespace version rest,
     a = Install name release_name namespace version
     /\ cmd = "helm" :: "install" :: rest)
  \/ (exists namespace rest,
        a = ListReleases namespace /\ cmd = "helm" :: "list" :: rest)
  \/ (exists release_name namespace rest,
        a = Uninstall release_name namespace /\ cmd = "helm" :: "uninstall" :: rest).
Proof.
  destruct a as [|keyword|name|name release_name namespace version|namespace
                 |release_name namespace].
  - intros [].
  - destruct (main_search_shape keyword) as (lines & ->).
    intros [H|H]; [discriminate H | now apply no_run_among_prints in H].
  - destruct (main_info_shape name) as (lines & ->).
    rewrite get_chart_details_trace. intros H. apply in_app_or in H.
    destruct H as [H|H]; [|now apply no_run_among_prints in H].
    destruct (split_on slash name) as [|repo [|chart [|x l]]]; simpl in H;
      try contradiction.
    destruct H as [H|[]]. discriminate H.
  - unfold trace. rewrite main_install_run.
    intros [H|[H|[]]]; [|discriminate H]. injection H as <- _.
    left. exists name, release_name, namespace, version.
    unfold install_cmd. destruct (truthy version); eexists; split; reflexivity.
  - unfold trace. rewrite main_list_releases_run.
    intros [H|[H|[]]]; [|discriminate H]. injection H as <- _.
    right. left. exists namespace.
    unfold list_cmd. destruct (truthy namespace); eexists; split; reflexivity.
  - unfold trace. rewrite main_uninstall_run.
    intros [H|[H|[]]]; [|discriminate H]. injection H as <- _.
    right. right. exists release_name, namespace. eexists. split; reflexivity.
Qed.

(** ** Display of malformed and well-formed answers *)






(** ** addRepository, the other outcomes *)

(** X13.  [add_helm_repo] returns normally exactly when [helm repo add]
    exited with status 0 and [helm repo update], run after it, exited with
    status 0 as well. *)
Theorem add_helm_repo_success (name url : string) :
  outcome (add_helm_repo w name url) = Ok tt
  <-> exists out1 out2,
        run_process w [] ["helm"; "repo"; "add"; name; url] = Exited 0 out1
        /\ run_process w [EvRun ["helm"; "repo"; "add"; name; url] false]
             ["helm"; "repo"; "update"]
           = Exited 0 out2.
Proof.
  unfold outcome. rewrite add_helm_repo_run. split.
  - destruct (run_process w [] _) as [|rc out1]; [discriminate|].
    destruct (rc =? 0)%Z eqn:E; [|discriminate]. simpl.
    apply Z.eqb_eq in E. subst rc.
    destruct (run_process w _ ["helm"; "repo"; "update"]) as [|rc2 out2];
      [discriminate|].
    destruct (rc2 =? 0)%Z eqn:E2; [|discriminate]. intros _.
    apply Z.eqb_eq in E2. subst rc2. now exists out1, out2.
  - intros (out1 & out2 & -> & H2). simpl. now rewrite H2.
Qed.

(** X14.  When the repository was added and the update then exits with a
    non-zero status, both commands have run, in order, and the exception
    carries the prefix ["Failed to add Helm repository: "] with the
    [CalledProcessError] of the update command. *)
Theorem add_helm_repo_update_failure (name url out1 out2 : string) (rc : Z) :
  run_process w [] ["helm"; "repo"; "add"; name; url] = Exited 0 out1 ->
  run_process w [EvRun ["helm"; "repo"; "add"; name; url] false]
    ["helm"; "repo"; "update"]
  = Exited rc out2 ->
  rc <> 0%Z ->
  run (add_helm_repo w name url)
  = (Err (Exception_ "Failed to add Helm repository: "
            (CalledProcessError rc ["helm"; "repo"; "update"])),
     [EvRun ["helm"; "repo"; "add"; name; url] false;
      EvRun ["helm"; "repo"; "update"] false]).
Proof.
  intros H1 H2 Hrc. rewrite add_helm_repo_run, H1. simpl. rewrite H2.
  apply Z.eqb_neq in Hrc. now rewrite Hrc.
Qed.

End Commands.

(** * The further statements at concrete inputs *)

Lemma get_chart_details_url_verbatim_witness :
  count_char slash "bitnami/" = 1
  /\ trace (get_chart_details not_found_world "bitnami/")
     = [EvGet "https://artifacthub.io/api/v1/packages/helm/bitnami/" []].
Proof.
  split; [reflexivity|].
  apply (get_chart_details_url_verbatim not_found_world "bitnami/"). reflexivity.
Defined.

Lemma get_chart_details_success_witness :
  outcome (get_chart_details details_world "bitnami/redis") = Ok (JObj redis_details).
Proof.
  apply (proj2 (get_chart_details_success details_world "bitnami/redis" (JObj redis_details))).
  split; [reflexivity|].
  exists (mkResponse 200 (Some (JObj redis_details))). repeat split.
Defined.

Lemma search_charts_success_witness :
  outcome (search_charts seven_results_world "redis") = Ok (JArr seven_charts).
Proof.
  apply (proj2 (search_charts_success seven_results_world "redis" (JArr seven_charts))).
  exists (mkResponse 200 (Some (JObj [("packages", JArr seven_charts)]))),
         [("packages", JArr seven_charts)].
  repeat split.
Defined.

Lemma http_error_status_raises_witness :
  (400 <= 404 < 600)%Z
  /\ run (search_charts not_found_world "redis")
     = (Err (HTTPError 404), [EvGet search_url (search_params "redis")])
  /\ run (get_chart_details not_found_world "bitnami/nothing")
     = (Err (HTTPError 404),
        [EvGet "https://artifacthub.io/api/v1/packages/helm/bitnami/nothing" []]).
Proof.
  assert (H : (400 <= 404 < 600)%Z) by lia.
  split; [exact H|]. split.
  - apply (proj1 (http_error_status_raises not_found_world 404%Z None H) "redis").
    reflexivity.
  - apply (proj2 (http_error_status_raises not_found_world 404%Z None H) "bitnami/nothing");
      reflexivity.
Defined.



Lemma main_runs_only_three_verbs_witness :
  In (EvRun ["helm"; "list"; "-n"; "ns1"] true)
     (trace (main empty_object_world (ListReleases (Some "ns1"))))
  /\ exists namespace rest,
       ListReleases (Some "ns1") = ListReleases namespace
       /\ ["helm"; "list"; "-n"; "ns1"] = "helm" :: "list" :: rest.
Proof.
  assert (H : In (EvRun ["helm"; "list"; "-n"; "ns1"] true)
                 (trace (main empty_object_world (ListReleases (Some "ns1"))))).
  { left. reflexivity. }
  split; [exact H|].
  destruct (main_runs_only_three_verbs empty_object_world _ _ _ H)
    as [(n & r & ns & v & rest & E & _)|[(ns & rest & E & C)|(r & ns & rest & E & _)]];
    [discriminate E | now exists ns, rest | discriminate E].
Defined.




Lemma add_helm_repo_success_witness :
  outcome (add_helm_repo empty_object_world "bitnami" "https://charts.bitnami.com/bitnami")
  = Ok tt
  /\ outcome (add_helm_repo update_fails_world "bitnami" "https://charts.bitnami.com/bitnami")
     <> Ok tt.
Proof.
  split.
  - apply (proj2 (add_helm_repo_success empty_object_world "bitnami"
                    "https://charts.bitnami.com/bitnami")).
    now exists "NAME", "NAME".
  - intros H.
    apply (proj1 (add_helm_repo_success update_fails_world "bitnami"
                    "https://charts.bitnami.com/bitnami")) in H.
    destruct H as (o1 & o2 & _ & H). discriminate H.
Defined.

Lemma add_helm_repo_update_failure_witness :
  run (add_helm_repo update_fails_world "bitnami" "https://charts.bitnami.com/bitnami")
  = (Err (Exception_ "Failed to add Helm repository: "
            (CalledProcessError 1 ["helm"; "repo"; "update"])),
     [EvRun ["helm"; "repo"; "add"; "bitnami"; "https://charts.bitnami.com/bitnami"] false;
      EvRun ["helm"; "repo"; "update"] false]).
Proof.
  apply (add_helm_repo_update_failure update_fails_world "bitnami"
           "https://charts.bitnami.com/bitnami" "" "" 1%Z);
    [reflexivity | reflexivity | discriminate].
Defined.

(** ** A search answer that is not a list *)

(** X15.  When [search_charts] returns a value that is not a list (the
    ["packages"] field holds a string, a number, a boolean, null or an
    object), the search command displays no result at all: after the
    request it prints at most lines that do not open a result. *)
Theorem search_displays_nothing_of_a_non_list (w : World) (keyword : string) (v : json) :
  outcome (search_charts w keyword) = Ok v ->
  (forall items, v <> JArr items) ->
  exists lines,
    trace (main w (Search keyword))
    = EvGet search_url (search_params keyword) :: map EvPrint lines
    /\ shown_results lines = 0.
Proof.
  intros Hout Hv. unfold trace. rewrite main_run, dispatch_search_run, Hout.
  destruct v as [|b|n|s|items|fields];
    try (exists [[Txt "Error: "; ExnStr TypeError]]; split; reflexivity).
  - destruct s as [|c s].
    + exists []. split; reflexivity.
    + exists [[Txt "Error: "; ExnStr TypeError]]. split; reflexivity.
  - now contradiction (Hv items).
Qed.

Lemma search_displays_nothing_of_a_non_list_witness :
  exists lines,
    trace (main (constant_world (ok_response (JObj [("packages", JStr "redis")])) SpawnFailure)
             (Search "redis"))
    = EvGet search_url (search_params "redis") :: map EvPrint lines
    /\ shown_results lines = 0.
Proof.
  apply (search_displays_nothing_of_a_non_list _ "redis" (JStr "redis"));
    [reflexivity | discriminate].
Defined.
